(** * EnhancedJsonConverter: optional post-import / post-export hooks

    A verification development for
    [Source/ChrisUnrealKit/Public/EnhancedJsonConverter/EnhancedJsonConverter.h].

    The header contains two things:

    - two trait classes, [THasPostJsonImport] and [THasPostJsonExport], which
      decide from the declarations of a struct type whether the type has a
      member of the conventional name;
    - four conversion templates ([JsonObjectToUStruct], [UStructToJsonObject],
      [JsonStringToUStruct], [UStructToJsonString]) which sequence the
      engine's converter, the optional hook and the engine's text codec.

    The traits are modelled in [Module Traits] as functions on a description
    of a class scope.  The conversion templates are modelled in
    [Module Converter] over a small trace monad which records every call that
    leaves the header (engine converter, text codec, hooks). *)

From Stdlib Require Import List String Ascii Bool Arith Lia.
Import ListNotations.

Set Implicit Arguments.

(* ================================================================= *)
(** ** Class scopes and the trait detectors *)

Module Traits.

Local Open Scope string_scope.

(** Types, as far as hook signatures are told apart. *)
Inductive CppType : Type :=
| Void
| Int32
| FStringType
| TArrayOfFString
| SharedPtrJsonObject            (* TSharedPtr<FJsonObject> *)
| ConstRefSharedPtrJsonObject.   (* const TSharedPtr<FJsonObject>& *)

Definition is_reference (t : CppType) : bool :=
  match t with ConstRefSharedPtrJsonObject => true | _ => false end.

Record Signature : Type := MkSignature {
  sig_params : list CppType;
  sig_result : CppType;
  sig_const  : bool
}.

Inductive Access : Type := Public | Protected | Private.

(** The kinds of declaration a name can stand for in a struct type.
    - [MemberFunction]: a plain non-static member function (declared or
      defined; not deleted, not a template, without constraints);
    - [StaticMemberFunction]: the same, declared [static];
    - [DeletedMemberFunction]: a member function declared [= delete];
    - [MemberFunctionTemplate]: a member function template;
    - [DataMember]: a non-static data member that is not a bit-field;
    - [BitField]: a bit-field;
    - [StaticDataMember]: a static data member;
    - [Enumerator]: an enumerator of a member unscoped enumeration;
    - [NestedType]: a member typedef, class or enumeration. *)
Inductive MemberKind : Type :=
| MemberFunction (sig : Signature)
| StaticMemberFunction (sig : Signature)
| DeletedMemberFunction (sig : Signature)
| MemberFunctionTemplate
| DataMember (ty : CppType)
| BitField
| StaticDataMember (ty : CppType)
| Enumerator
| NestedType.

Record MemberDecl : Type := MkMember {
  member_name   : string;
  member_access : Access;
  member_kind   : MemberKind
}.

(** A struct type as the detectors see it.  [members] are the declarations
    member name lookup [C::Name] can yield, inherited ones included and
    hidden ones left out (a type name hidden by a member of the same name, a
    base member hidden by a derived one), so that several entries of one
    name are an overload set.  [befriends_converter] tells whether the
    struct declares [friend class ChrisUE::FEnhancedJsonConverter;], which
    opens its private and protected members to the converter and to the
    detector classes nested in it. *)
Record ClassScope : Type := MkClassScope {
  members             : list MemberDecl;
  befriends_converter : bool
}.

Definition lookup (C : ClassScope) (Name : string) : list MemberDecl :=
  filter (fun m => String.eqb (member_name m) Name) (members C).

Inductive PointerType : Type :=
| PointerToMemberFunction (sig : Signature)
| PointerToFunction (sig : Signature)
| PointerToData (ty : CppType)
| PointerToObject (ty : CppType).

(** Whether [C::Name] may be named inside [FEnhancedJsonConverter]. *)
Definition accessible (C : ClassScope) (m : MemberDecl) : bool :=
  match member_access m with
  | Public => true
  | Protected | Private => befriends_converter C
  end.

(** [&C::Name] for a single declaration, inside [FEnhancedJsonConverter].
    The expression is ill-formed when the member is not accessible there,
    when the function is deleted, when the name is a template (no target
    type selects a specialization), when the member is a bit-field or a
    non-static member of reference type, and when the name is an enumerator
    or a type. *)
Definition address_of (C : ClassScope) (m : MemberDecl) : option PointerType :=
  if accessible C m then
    match member_kind m with
    | MemberFunction sig        => Some (PointerToMemberFunction sig)
    | StaticMemberFunction sig  => Some (PointerToFunction sig)
    | DeletedMemberFunction _   => None
    | MemberFunctionTemplate    => None
    | DataMember ty             =>
        if is_reference ty then None else Some (PointerToData ty)
    | BitField                  => None
    | StaticDataMember ty       => Some (PointerToObject ty)
    | Enumerator                => None
    | NestedType                => None
    end
  else None.

(** [decltype(&C::Name)]: [None] when the expression is ill-formed, that is
    when nothing is found, when the name is an overload set (which has no
    type without a target), or when the one member cannot be addressed. *)
Definition decltype_address_of (C : ClassScope) (Name : string)
  : option PointerType :=
  match lookup C Name with
  | [m] => address_of C m
  | _   => None
  end.

(** [typedef char YesType[1]; typedef char NoType[2];] *)
Definition sizeof_YesType : nat := 1.
Definition sizeof_NoType  : nat := 2.

(** [sizeof(Test<T>(0))] for the overload pair
    [template<typename C> static YesType& Test(decltype(&C::Name));]
    [template<typename C> static NoType&  Test(...);]
    When the parameter type of the first overload can be formed, the
    literal [0] converts to it (a null pointer conversion) and the overload
    is preferred to the ellipsis; otherwise substitution fails and only
    the ellipsis overload remains. *)
Definition sizeof_Test (param : option PointerType) : nat :=
  match param with
  | Some _ => sizeof_YesType
  | None   => sizeof_NoType
  end.

(** [enum { Value = sizeof(Test<T>(0)) == sizeof(YesType) };] *)
Definition THasPostJsonImport (T : ClassScope) : bool :=
  Nat.eqb (sizeof_Test (decltype_address_of T "PostJsonImport")) sizeof_YesType.

Definition THasPostJsonExport (T : ClassScope) : bool :=
  Nat.eqb (sizeof_Test (decltype_address_of T "PostJsonExport")) sizeof_YesType.

(** *** What the header documents as the hooks' signatures

    [void PostJsonImport(const TSharedPtr<FJsonObject>& JsonObject);]
    [TSharedPtr<FJsonObject> PostJsonExport(TSharedPtr<FJsonObject> JsonObject) const;]

    A signature is taken as compatible when a call with one
    [TSharedPtr<FJsonObject>] argument is well-formed and gives the
    documented result type; the export hook is called on a [const T&]
    and so has to be a const member. *)
Definition takes_json_pointer (ps : list CppType) : bool :=
  match ps with
  | [SharedPtrJsonObject] | [ConstRefSharedPtrJsonObject] => true
  | _ => false
  end.

Definition is_void (t : CppType) : bool :=
  match t with Void => true | _ => false end.

Definition is_json_pointer (t : CppType) : bool :=
  match t with SharedPtrJsonObject => true | _ => false end.

Definition import_signature_ok (s : Signature) : bool :=
  takes_json_pointer (sig_params s) && is_void (sig_result s).

Definition export_signature_ok (s : Signature) : bool :=
  takes_json_pointer (sig_params s) && is_json_pointer (sig_result s)
  && sig_const s.

Definition is_hook (ok : Signature -> bool) (Name : string) (m : MemberDecl)
  : bool :=
  String.eqb (member_name m) Name &&
  match member_kind m with
  | MemberFunction sig => ok sig
  | _ => false
  end.

Definition declares_import_hook (T : ClassScope) : bool :=
  existsb (is_hook import_signature_ok "PostJsonImport") (members T).

Definition declares_export_hook (T : ClassScope) : bool :=
  existsb (is_hook export_signature_ok "PostJsonExport") (members T).

(** A struct type that declares [m] among other members. *)
Definition declaring (before after : list MemberDecl) (m : MemberDecl)
    (friend : bool) : ClassScope :=
  MkClassScope (before ++ m :: after) friend.

End Traits.

(* ================================================================= *)
(** ** The conversion templates *)

Module Converter.

Import Traits.

(** [TSharedPtr<A>]: either null or a reference to an [A]. *)
Definition TSharedPtr (A : Type) : Type := option A.

Definition IsValid {A : Type} (p : TSharedPtr A) : bool :=
  match p with Some _ => true | None => false end.

Definition nullptr {A : Type} : TSharedPtr A := None.

Definition FString : Type := string.

Section Templates.

(** The engine's JSON object tree.  The header never looks inside it. *)
Variable FJsonObject : Type.

(** A struct type [TStruct] the templates are instantiated at: its
    values, the declarations name lookup finds in it, and the meaning of
    the two calls [Struct.PostJsonImport(JsonObject)] and
    [Struct.PostJsonExport(JsonObject)].  The import hook runs on a
    [T&] and gives the struct back as it leaves it; the export hook runs
    on a [const T&] and gives a pointer back.  [if constexpr] discards
    the call when the detector yields [false], so the last two fields are
    consulted only for types on which the matching detector fires. *)
Record UStructType : Type := MkUStructType {
  TStruct        : Type;
  Scope          : ClassScope;
  PostJsonImport : TStruct -> TSharedPtr FJsonObject -> TStruct;
  PostJsonExport : TStruct -> TSharedPtr FJsonObject -> TSharedPtr FJsonObject
}.

(** The collaborators from [JsonObjectConverter.h] and the engine's
    serializer.  The converter takes the object by
    [const TSharedRef<FJsonObject>&] and only reads the tree, so an object
    is passed around by value here.  Out-parameters are returned next to
    the result:
    - [FJsonObjectConverter::JsonObjectToUStruct<TStruct>(Ref, &OutStruct)]
      gives its flag and the struct as it leaves it;
    - [FJsonObjectConverter::UStructToJsonObject(InStruct)];
    - [FJsonSerializer::Deserialize(Reader, JsonObject)] on a reader over
      the text, with [JsonObject] default-constructed: the flag and the
      pointer as it leaves it;
    - [FJsonSerializer::Serialize(Ref, Writer)] on a writer over
      [&OutJsonString]: the flag and the string as it leaves it. *)
Record Engine (T : UStructType) : Type := MkEngine {
  FJsonObjectConverter_JsonObjectToUStruct :
    FJsonObject -> TStruct T -> bool * TStruct T;
  FJsonObjectConverter_UStructToJsonObject :
    TStruct T -> TSharedPtr FJsonObject;
  FJsonSerializer_Deserialize :
    FString -> bool * TSharedPtr FJsonObject;
  FJsonSerializer_Serialize :
    FJsonObject -> FString -> bool * FString
}.

Variable T : UStructType.
Variable E : Engine T.

(** Every call that leaves the header, with its arguments. *)
Inductive Event : Type :=
| GenericImport (Ref : FJsonObject) (Struct : TStruct T)
| GenericExport (Struct : TStruct T)
| HookImport (Struct : TStruct T) (JsonObject : TSharedPtr FJsonObject)
| HookExport (Struct : TStruct T) (JsonObject : TSharedPtr FJsonObject)
| Deserialize (JsonString : FString)
| Serialize (Ref : FJsonObject).

(** Computations that append to the trace of calls. *)
Definition Traced (A : Type) : Type := list Event -> A * list Event.

Definition ret {A : Type} (a : A) : Traced A := fun tr => (a, tr).

Definition bind {A B : Type} (m : Traced A) (k : A -> Traced B) : Traced B :=
  fun tr => let (a, tr') := m tr in k a tr'.

Definition call {A : Type} (e : Event) (a : A) : Traced A :=
  fun tr => (a, tr ++ [e]).

Notation "x <- m ;; k" := (bind m (fun x => k))
  (at level 61, m at next level, right associativity).
Notation "' pat <- m ;; k" := (bind m (fun x => match x with pat => k end))
  (at level 61, pat pattern, m at next level, right associativity).

(** [CallPostJsonImportIfExists(T& Struct, const TSharedPtr<FJsonObject>& JsonObject)] *)
Definition CallPostJsonImportIfExists
    (Struct : TStruct T) (JsonObject : TSharedPtr FJsonObject)
  : Traced (TStruct T) :=
  if THasPostJsonImport (Scope T)
  then call (HookImport Struct JsonObject) (PostJsonImport T Struct JsonObject)
  else ret Struct.

(** [CallPostJsonExportIfExists(const T& Struct, TSharedPtr<FJsonObject> JsonObject)] *)
Definition CallPostJsonExportIfExists
    (Struct : TStruct T) (JsonObject : TSharedPtr FJsonObject)
  : Traced (TSharedPtr FJsonObject) :=
  if THasPostJsonExport (Scope T)
  then call (HookExport Struct JsonObject) (PostJsonExport T Struct JsonObject)
  else ret JsonObject.

(** [JsonObjectToUStruct(const TSharedPtr<FJsonObject>& JsonObject, TStruct& OutStruct)];
    the result pairs the returned flag with [OutStruct] on return. *)
Definition JsonObjectToUStruct
    (JsonObject : TSharedPtr FJsonObject) (OutStruct : TStruct T)
  : Traced (bool * TStruct T) :=
  match JsonObject with
  | None => ret (false, OutStruct)
  | Some Ref =>
      '(ok, OutStruct) <-
         call (GenericImport Ref OutStruct)
              (FJsonObjectConverter_JsonObjectToUStruct E Ref OutStruct) ;;
      if negb ok then ret (false, OutStruct)
      else
        OutStruct <- CallPostJsonImportIfExists OutStruct JsonObject ;;
        ret (true, OutStruct)
  end.

(** [UStructToJsonObject(const TStruct& InStruct)] *)
Definition UStructToJsonObject (InStruct : TStruct T)
  : Traced (TSharedPtr FJsonObject) :=
  JsonObject <-
    call (GenericExport InStruct)
         (FJsonObjectConverter_UStructToJsonObject E InStruct) ;;
  if negb (IsValid JsonObject) then ret nullptr
  else CallPostJsonExportIfExists InStruct JsonObject.

(** [JsonStringToUStruct(const FString& JsonString, TStruct& OutStruct)] *)
Definition JsonStringToUStruct
    (JsonString : FString) (OutStruct : TStruct T)
  : Traced (bool * TStruct T) :=
  '(ok, JsonObject) <-
     call (Deserialize JsonString) (FJsonSerializer_Deserialize E JsonString) ;;
  if negb ok || negb (IsValid JsonObject) then ret (false, OutStruct)
  else JsonObjectToUStruct JsonObject OutStruct.

(** [UStructToJsonString(const TStruct& InStruct, FString& OutJsonString)];
    the result pairs the returned flag with [OutJsonString] on return. *)
Definition UStructToJsonString
    (InStruct : TStruct T) (OutJsonString : FString)
  : Traced (bool * FString) :=
  JsonObject <- UStructToJsonObject InStruct ;;
  match JsonObject with
  | None => ret (false, OutJsonString)
  | Some Ref =>
      call (Serialize Ref) (FJsonSerializer_Serialize E Ref OutJsonString)
  end.

(** *** What a text denotes

    The root value of a JSON text, as the grammar has it; [None] for a
    text that is not JSON.  [FJsonSerializer::Deserialize] is handed a
    [TSharedPtr<FJsonObject>&], which can hold an object and nothing
    else.  The serializer is taken to be faithful to the text: when it
    reports success and leaves a valid pointer, the root of the text is
    that object. *)
Inductive JsonRoot : Type :=
| RootObject (Object : FJsonObject)
| RootArray
| RootString
| RootNumber
| RootBoolean
| RootNull.

Definition is_RootObject (r : JsonRoot) : bool :=
  match r with RootObject _ => true | _ => false end.

Definition Deserialize_faithful (root : FString -> option JsonRoot) : Prop :=
  forall (JsonString : FString) (Object : FJsonObject),
    FJsonSerializer_Deserialize E JsonString = (true, Some Object) ->
    root JsonString = Some (RootObject Object).

(** The text codec reads back what it wrote. *)
Definition Codec_roundtrip : Prop :=
  forall (Ref : FJsonObject) (Out Text : FString),
    FJsonSerializer_Serialize E Ref Out = (true, Text) ->
    FJsonSerializer_Deserialize E Text = (true, Some Ref).

(** *** Declared fields and hook-managed fields

    A struct value seen as the fields the engine's converter maps
    ([declared]) and the fields the hooks look after ([managed]). *)
Section Fields.

Variables Declared Managed : Type.
Variable declared : TStruct T -> Declared.
Variable managed  : TStruct T -> Managed.

(** A struct value is its declared and its managed fields. *)
Definition Fields_determine_struct : Prop :=
  forall a b : TStruct T,
    declared a = declared b -> managed a = managed b -> a = b.

(** The engine's converter reads the declared fields back from the
    object it produced, also after the export hook has worked on it. *)
Definition Declared_fields_read_back : Prop :=
  forall (x OutStruct : TStruct T) (Ref Ref' : FJsonObject),
    FJsonObjectConverter_UStructToJsonObject E x = Some Ref ->
    PostJsonExport T x (Some Ref) = Some Ref' ->
    exists Mapped,
      FJsonObjectConverter_JsonObjectToUStruct E Ref' OutStruct
        = (true, Mapped) /\
      declared Mapped = declared x.

(** The import hook is the inverse of the export hook on the managed
    fields, and leaves the declared fields alone. *)
Definition Import_inverts_export : Prop :=
  forall (x Struct : TStruct T) (JsonObject : TSharedPtr FJsonObject)
         (Ref' : FJsonObject),
    PostJsonExport T x JsonObject = Some Ref' ->
    managed (PostJsonImport T Struct (Some Ref')) = managed x /\
    declared (PostJsonImport T Struct (Some Ref')) = declared Struct.

End Fields.

(** *** Reading traces *)

Definition is_HookImport (e : Event) : bool :=
  match e with HookImport _ _ => true | _ => false end.

Definition is_HookExport (e : Event) : bool :=
  match e with HookExport _ _ => true | _ => false end.

Definition is_GenericImport (e : Event) : bool :=
  match e with GenericImport _ _ => true | _ => false end.

Definition is_Serialize (e : Event) : bool :=
  match e with Serialize _ => true | _ => false end.

Definition is_Deserialize (e : Event) : bool :=
  match e with Deserialize _ => true | _ => false end.

Definition is_GenericExport (e : Event) : bool :=
  match e with GenericExport _ => true | _ => false end.

Definition calls (p : Event -> bool) (tr : list Event) : nat :=
  List.length (filter p tr).

(** The calls a computation makes, started on an empty trace. *)
Definition trace_of {A : Type} (m : Traced A) : list Event := snd (m []).

Definition result_of {A : Type} (m : Traced A) : A := fst (m []).

End Templates.

Arguments GenericImport {FJsonObject T} Ref Struct.
Arguments GenericExport {FJsonObject T} Struct.
Arguments HookImport {FJsonObject T} Struct JsonObject.
Arguments HookExport {FJsonObject T} Struct JsonObject.
Arguments Deserialize {FJsonObject T} JsonString.
Arguments Serialize {FJsonObject T} Ref.
Arguments RootObject {FJsonObject} Object.
Arguments RootArray {FJsonObject}.
Arguments RootString {FJsonObject}.
Arguments RootNumber {FJsonObject}.
Arguments RootBoolean {FJsonObject}.
Arguments RootNull {FJsonObject}.
Arguments CallPostJsonImportIfExists {FJsonObject} T Struct JsonObject _.
Arguments CallPostJsonExportIfExists {FJsonObject} T Struct JsonObject _.
Arguments JsonObjectToUStruct {FJsonObject T} E JsonObject OutStruct _.
Arguments UStructToJsonObject {FJsonObject T} E InStruct _.
Arguments JsonStringToUStruct {FJsonObject T} E JsonString OutStruct _.
Arguments UStructToJsonString {FJsonObject T} E InStruct OutJsonString _.
Arguments Deserialize_faithful {FJsonObject T} E root.
Arguments Codec_roundtrip {FJsonObject T} E.
Arguments Fields_determine_struct {FJsonObject T Declared Managed} declared managed.
Arguments Declared_fields_read_back {FJsonObject T} E {Declared} declared.
Arguments Import_inverts_export {FJsonObject T Declared Managed} declared managed.

End Converter.

(* ================================================================= *)
(** ** Struct types used as concrete inputs *)

Module Sample.

Import Traits Converter.
Local Open Scope string_scope.

(** A small JSON object tree: string-keyed fields, first binding wins. *)
Inductive FJsonValue : Type :=
| JsonString (s : string)
| JsonNumber (n : nat)
| JsonStringArray (l : list string).

Definition FJsonObject : Type := list (string * FJsonValue).

Fixpoint TryGetField (Object : FJsonObject) (Key : string) : option FJsonValue :=
  match Object with
  | [] => None
  | (k, v) :: rest => if String.eqb k Key then Some v else TryGetField rest Key
  end.

Definition FJsonValue_eq_dec (a b : FJsonValue) : {a = b} + {a <> b}.
Proof.
  decide equality;
    [ apply string_dec | apply Nat.eq_dec | apply (list_eq_dec string_dec) ].
Defined.

Definition FJsonObject_eq_dec (a b : FJsonObject) : {a = b} + {a <> b}.
Proof.
  apply list_eq_dec. intros [k v] [k' v'].
  destruct (string_dec k k') as [-> | Hk];
    [ destruct (FJsonValue_eq_dec v v') as [-> | Hv];
      [ left; reflexivity | right; intros H; apply Hv; congruence ]
    | right; intros H; apply Hk; congruence ].
Defined.

(** *** [FItem]: a declared field [Name] and a hook-managed field [Tags] *)

Record FItem : Type := MkItem {
  Name : string;
  Tags : list string
}.

Definition import_signature : Signature :=
  MkSignature [ConstRefSharedPtrJsonObject] Void false.

Definition export_signature : Signature :=
  MkSignature [SharedPtrJsonObject] SharedPtrJsonObject true.

Definition FItem_scope : ClassScope :=
  MkClassScope
    [ MkMember "Name" Public (DataMember FStringType);
      MkMember "Tags" Public (DataMember TArrayOfFString);
      MkMember "PostJsonImport" Public (MemberFunction import_signature);
      MkMember "PostJsonExport" Public (MemberFunction export_signature) ]
    false.

(** Reads [tags] back from the object; an object without it gives no tags. *)
Definition FItem_PostJsonImport (Struct : FItem) (JsonObject : TSharedPtr FJsonObject)
  : FItem :=
  match JsonObject with
  | Some Object =>
      match TryGetField Object "tags" with
      | Some (JsonStringArray l) => MkItem (Name Struct) l
      | _ => MkItem (Name Struct) []
      end
  | None => Struct
  end.

(** Sets [tags] on the object it is given. *)
Definition FItem_PostJsonExport (Struct : FItem) (JsonObject : TSharedPtr FJsonObject)
  : TSharedPtr FJsonObject :=
  match JsonObject with
  | Some Object => Some (("tags", JsonStringArray (Tags Struct)) :: Object)
  | None => None
  end.

Definition ItemType : UStructType FJsonObject :=
  MkUStructType FItem_scope FItem_PostJsonImport FItem_PostJsonExport.

(** The reflective converter on [FItem]: [name] has to be a string when
    it is there, and is the only field written. *)
Definition Item_JsonObjectToUStruct (Ref : FJsonObject) (OutStruct : FItem)
  : bool * FItem :=
  match TryGetField Ref "name" with
  | Some (JsonString n) => (true, MkItem n (Tags OutStruct))
  | Some _ => (false, OutStruct)
  | None => (true, OutStruct)
  end.

Definition Item_UStructToJsonObject (InStruct : FItem) : TSharedPtr FJsonObject :=
  Some [("name", JsonString (Name InStruct))].

(** A text codec that knows one document and one array text. *)
Definition quote : string := String (ascii_of_nat 34) EmptyString.

Definition item_a : FItem := MkItem "a" ["x"; "y"].

Definition item_a_json : FJsonObject :=
  [("tags", JsonStringArray ["x"; "y"]); ("name", JsonString "a")].

Definition item_a_text : FString :=
  "{" ++ quote ++ "tags" ++ quote ++ ":[" ++ quote ++ "x" ++ quote ++ ","
      ++ quote ++ "y" ++ quote ++ "]," ++ quote ++ "name" ++ quote ++ ":"
      ++ quote ++ "a" ++ quote ++ "}".

Definition array_text : FString := "[1,2]".

Definition mistyped_json : FJsonObject := [("name", JsonNumber 123)].

(** A default-constructed [FItem]. *)
Definition blank : FItem := MkItem "" [].

Definition Table_Deserialize (JsonString : FString)
  : bool * TSharedPtr FJsonObject :=
  if String.eqb JsonString item_a_text then (true, Some item_a_json)
  else (false, None).

Definition Table_Serialize (Ref : FJsonObject) (Out : FString) : bool * FString :=
  if FJsonObject_eq_dec Ref item_a_json then (true, item_a_text)
  else (false, Out).

Definition Table_root (JsonString : FString) : option (JsonRoot FJsonObject) :=
  if String.eqb JsonString item_a_text then Some (RootObject item_a_json)
  else if String.eqb JsonString array_text then Some RootArray
  else None.

Definition ItemEngine : Engine ItemType :=
  MkEngine ItemType
    Item_JsonObjectToUStruct Item_UStructToJsonObject
    Table_Deserialize Table_Serialize.

(** An engine converter that cannot map [FItem] to an object (a field of
    a type it does not support). *)
Definition UnmappedEngine : Engine ItemType :=
  MkEngine ItemType
    Item_JsonObjectToUStruct (fun _ => nullptr)
    Table_Deserialize Table_Serialize.

(** A deserializer that knows one more document, in which [name] is a
    number. *)
Definition mistyped_text : FString :=
  "{" ++ quote ++ "name" ++ quote ++ ":123}".

Definition Mistyped_Deserialize (JsonString : FString)
  : bool * TSharedPtr FJsonObject :=
  if String.eqb JsonString mistyped_text then (true, Some mistyped_json)
  else Table_Deserialize JsonString.

Definition MistypedEngine : Engine ItemType :=
  MkEngine ItemType
    Item_JsonObjectToUStruct Item_UStructToJsonObject
    Mistyped_Deserialize Table_Serialize.

(** *** [FPlain]: the same declared field and no hook *)

Definition FPlain_scope : ClassScope :=
  MkClassScope
    [ MkMember "Name" Public (DataMember FStringType);
      MkMember "Tags" Public (DataMember TArrayOfFString) ]
    false.

Definition PlainType : UStructType FJsonObject :=
  MkUStructType FPlain_scope
    (fun (Struct : FItem) _ => Struct) (fun _ JsonObject => JsonObject).

Definition PlainEngine : Engine PlainType :=
  MkEngine PlainType
    Item_JsonObjectToUStruct Item_UStructToJsonObject
    Table_Deserialize Table_Serialize.

(** *** [FImportOnly]: the import hook of [FItem] and no export hook *)

Definition FImportOnly_scope : ClassScope :=
  MkClassScope
    [ MkMember "Name" Public (DataMember FStringType);
      MkMember "Tags" Public (DataMember TArrayOfFString);
      MkMember "PostJsonImport" Public (MemberFunction import_signature) ]
    false.

Definition ImportOnlyType : UStructType FJsonObject :=
  MkUStructType FImportOnly_scope
    FItem_PostJsonImport (fun _ JsonObject => JsonObject).

Definition ImportOnlyEngine : Engine ImportOnlyType :=
  MkEngine ImportOnlyType
    Item_JsonObjectToUStruct Item_UStructToJsonObject
    Table_Deserialize Table_Serialize.

(** *** [FOverloaded]: the documented import hook next to an overload

    [void PostJsonImport(const TSharedPtr<FJsonObject>& JsonObject);]
    [void PostJsonImport(int32 Version);]
    A call with a [TSharedPtr<FJsonObject>] would select the first. *)

Definition FOverloaded_scope : ClassScope :=
  MkClassScope
    [ MkMember "Name" Public (DataMember FStringType);
      MkMember "Tags" Public (DataMember TArrayOfFString);
      MkMember "PostJsonImport" Public (MemberFunction import_signature);
      MkMember "PostJsonImport" Public
        (MemberFunction (MkSignature [Int32] Void false)) ]
    false.

Definition OverloadedType : UStructType FJsonObject :=
  MkUStructType FOverloaded_scope
    FItem_PostJsonImport (fun _ JsonObject => JsonObject).

Definition OverloadedEngine : Engine OverloadedType :=
  MkEngine OverloadedType
    Item_JsonObjectToUStruct Item_UStructToJsonObject
    Table_Deserialize Table_Serialize.

(** *** [FOverloadedPair]: both hooks of [FItem], and an overload of the
    import hook

    [void PostJsonImport(const TSharedPtr<FJsonObject>& JsonObject);]
    [void PostJsonImport(int32 Version);]
    [TSharedPtr<FJsonObject> PostJsonExport(TSharedPtr<FJsonObject> JsonObject) const;] *)

Definition FOverloadedPair_scope : ClassScope :=
  MkClassScope
    [ MkMember "Name" Public (DataMember FStringType);
      MkMember "Tags" Public (DataMember TArrayOfFString);
      MkMember "PostJsonImport" Public (MemberFunction import_signature);
      MkMember "PostJsonImport" Public
        (MemberFunction (MkSignature [Int32] Void false));
      MkMember "PostJsonExport" Public (MemberFunction export_signature) ]
    false.

Definition OverloadedPairType : UStructType FJsonObject :=
  MkUStructType FOverloadedPair_scope FItem_PostJsonImport FItem_PostJsonExport.

Definition OverloadedPairEngine : Engine OverloadedPairType :=
  MkEngine OverloadedPairType
    Item_JsonObjectToUStruct Item_UStructToJsonObject
    Table_Deserialize Table_Serialize.

(** *** [FGuarded]: the export hook of [FItem], declared [private], in a
    struct that declares no friend *)

Definition FGuarded_scope : ClassScope :=
  MkClassScope
    [ MkMember "Name" Public (DataMember FStringType);
      MkMember "Tags" Public (DataMember TArrayOfFString);
      MkMember "PostJsonExport" Private (MemberFunction export_signature) ]
    false.

Definition GuardedType : UStructType FJsonObject :=
  MkUStructType FGuarded_scope
    (fun (Struct : FItem) _ => Struct) FItem_PostJsonExport.

Definition GuardedEngine : Engine GuardedType :=
  MkEngine GuardedType
    Item_JsonObjectToUStruct Item_UStructToJsonObject
    Table_Deserialize Table_Serialize.

(** *** [FSilent]: an export hook that gives a null pointer back

    [TSharedPtr<FJsonObject> PostJsonExport(TSharedPtr<FJsonObject>) const { return nullptr; }] *)

Definition FSilent_scope : ClassScope :=
  MkClassScope
    [ MkMember "Name" Public (DataMember FStringType);
      MkMember "PostJsonExport" Public (MemberFunction export_signature) ]
    false.

Definition SilentType : UStructType FJsonObject :=
  MkUStructType FSilent_scope
    (fun (Struct : FItem) _ => Struct) (fun _ _ => nullptr).

Definition SilentEngine : Engine SilentType :=
  MkEngine SilentType
    Item_JsonObjectToUStruct Item_UStructToJsonObject
    Table_Deserialize Table_Serialize.

(** *** Class scopes with a member of the conventional name and another
    signature

    [void PostJsonImport(int32 Version);]
    [FString PostJsonExport;] *)

Definition FVersioned_scope : ClassScope :=
  MkClassScope
    [ MkMember "Name" Public (DataMember FStringType);
      MkMember "PostJsonImport" Public
        (MemberFunction (MkSignature [Int32] Void false)) ]
    false.

Definition FLabelled_scope : ClassScope :=
  MkClassScope
    [ MkMember "PostJsonExport" Public (DataMember FStringType) ]
    false.

(** *** Class scopes on which [&C::PostJsonImport] is ill-formed, and one
    that opens a private hook to the converter

    [int32 PostJsonImport : 3;]
    [void PostJsonImport(const TSharedPtr<FJsonObject>&) = delete;]
    [template<typename U> void PostJsonImport(const U&);]
    [friend class ChrisUE::FEnhancedJsonConverter;] with a private
    [void PostJsonImport(const TSharedPtr<FJsonObject>&);] *)

Definition FBitField_scope : ClassScope :=
  MkClassScope [ MkMember "PostJsonImport" Public BitField ] false.

Definition FDeleted_scope : ClassScope :=
  MkClassScope
    [ MkMember "PostJsonImport" Public (DeletedMemberFunction import_signature) ]
    false.

Definition FTemplated_scope : ClassScope :=
  MkClassScope [ MkMember "PostJsonImport" Public MemberFunctionTemplate ] false.

Definition FFriendly_scope : ClassScope :=
  MkClassScope
    [ MkMember "PostJsonImport" Private (MemberFunction import_signature) ]
    true.

End Sample.

(* ================================================================= *)
(** ** Properties of the trait detectors *)

Module TraitsFacts.

Import Traits.
Local Open Scope string_scope.

Lemma sizeof_Test_Yes (param : option PointerType) :
  Nat.eqb (sizeof_Test param) sizeof_YesType = true <-> exists p, param = Some p.
Proof.
  destruct param as [p|]; simpl; split; intros H.
  - exists p; reflexivity.
  - reflexivity.
  - discriminate H.
  - destruct H as [p Hp]; discriminate Hp.
Qed.

Lemma lookup_In (T : ClassScope) (Name : string) (m : MemberDecl) :
  In m (lookup T Name) -> In m (members T) /\ member_name m = Name.
Proof.
  unfold lookup. rewrite filter_In. intros [Hin Hname].
  split; [exact Hin | apply String.eqb_eq, Hname].
Qed.

Lemma detector_needs_a_member (T : ClassScope) (Name : string) :
  Nat.eqb (sizeof_Test (decltype_address_of T Name)) sizeof_YesType = true ->
  exists m, In m (members T) /\ member_name m = Name.
Proof.
  rewrite sizeof_Test_Yes. unfold decltype_address_of. intros [p Hp].
  destruct (lookup T Name) as [|m [|m' rest]] eqn:Hlook;
    [discriminate Hp | | discriminate Hp].
  exists m. apply (lookup_In T Name). rewrite Hlook. left. reflexivity.
Qed.

Lemma detector_ignores_signature
    (Name : string) (before after : list MemberDecl) (friend : bool)
    (access : Access) (sig sig' : Signature) :
  sizeof_Test (decltype_address_of
     (declaring before after (MkMember Name access (MemberFunction sig)) friend)
     Name)
  = sizeof_Test (decltype_address_of
     (declaring before after (MkMember Name access (MemberFunction sig')) friend)
     Name).
Proof.
  unfold decltype_address_of, lookup, declaring. cbn [members].
  rewrite !filter_app. cbn [filter member_name]. rewrite String.eqb_refl.
  destruct (filter (fun m => String.eqb (member_name m) Name) before)
    as [|a [|b l]];
    destruct (filter (fun m => String.eqb (member_name m) Name) after)
      as [|c l']; cbn [app]; try reflexivity.
  unfold address_of, accessible. cbn.
  destruct access, friend; reflexivity.
Qed.

Example detectors_on_unusual_members :
  THasPostJsonImport Sample.FBitField_scope = false /\
  THasPostJsonImport Sample.FDeleted_scope = false /\
  THasPostJsonImport Sample.FTemplated_scope = false /\
  THasPostJsonImport Sample.FFriendly_scope = true /\
  THasPostJsonExport Sample.FGuarded_scope = false.
Proof. repeat split. Qed.

(** C8, as the claim states it: a detector that fires would imply that the
    struct type declares a member function of the conventional name with
    the documented signature.  [FVersioned] declares
    [void PostJsonImport(int32)]; [THasPostJsonImport] fires on it. *)
Lemma detector_fires_on_other_signature :
  ~ (forall T : ClassScope,
        (THasPostJsonImport T = true -> declares_import_hook T = true) /\
        (THasPostJsonExport T = true -> declares_export_hook T = true)).
Proof.
  intros H. destruct (H Sample.FVersioned_scope) as [Himport _].
  specialize (Himport eq_refl). discriminate Himport.
Qed.

(** C8, amended: each detector yields [true] only when the struct type
    declares a member of the conventional name, and the signature of that
    member is not compared: replacing the signature of a member function
    named [PostJsonImport] (or [PostJsonExport]) by any other signature
    leaves the detector's answer as it was. *)
Theorem detectors_test_the_name_only :
  (forall T : ClassScope,
      THasPostJsonImport T = true ->
      exists m, In m (members T) /\ member_name m = "PostJsonImport") /\
  (forall T : ClassScope,
      THasPostJsonExport T = true ->
      exists m, In m (members T) /\ member_name m = "PostJsonExport") /\
  (forall before after friend access sig sig',
      THasPostJsonImport
        (declaring before after
           (MkMember "PostJsonImport" access (MemberFunction sig)) friend)
      = THasPostJsonImport
          (declaring before after
             (MkMember "PostJsonImport" access (MemberFunction sig')) friend)) /\
  (forall before after friend access sig sig',
      THasPostJsonExport
        (declaring before after
           (MkMember "PostJsonExport" access (MemberFunction sig)) friend)
      = THasPostJsonExport
          (declaring before after
             (MkMember "PostJsonExport" access (MemberFunction sig')) friend)).
Proof.
  split; [|split; [|split]].
  - intros T. apply detector_needs_a_member.
  - intros T. apply detector_needs_a_member.
  - intros before after friend access sig sig'. unfold THasPostJsonImport.
    now rewrite (detector_ignores_signature _ before after friend access sig sig').
  - intros before after friend access sig sig'. unfold THasPostJsonExport.
    now rewrite (detector_ignores_signature _ before after friend access sig sig').
Qed.

(** The documented import hook and [void PostJsonImport(int32)] get the
    same answer from [THasPostJsonImport]. *)
Lemma detector_on_versioned_struct :
  THasPostJsonImport Sample.FVersioned_scope = true /\
  (exists m, In m (members Sample.FVersioned_scope) /\
             member_name m = "PostJsonImport") /\
  THasPostJsonImport
    (declaring [MkMember "Name" Public (DataMember FStringType)] []
       (MkMember "PostJsonImport" Public
          (MemberFunction (MkSignature [Int32] Void false))) false)
  = THasPostJsonImport
      (declaring [MkMember "Name" Public (DataMember FStringType)] []
         (MkMember "PostJsonImport" Public
            (MemberFunction Sample.import_signature)) false).
Proof.
  split; [reflexivity|]. split.
  - apply (proj1 detectors_test_the_name_only Sample.FVersioned_scope).
    reflexivity.
  - apply (proj1 (proj2 (proj2 detectors_test_the_name_only))).
Defined.

End TraitsFacts.

(* ================================================================= *)
(** ** Properties of the conversion templates *)

Module ConverterFacts.

Import Traits Converter.

(** Unfolds the templates and the trace monad down to the engine calls. *)
Ltac run :=
  unfold JsonStringToUStruct, UStructToJsonString,
         JsonObjectToUStruct, UStructToJsonObject,
         CallPostJsonImportIfExists, CallPostJsonExportIfExists,
         trace_of, result_of, calls, bind, call, ret, nullptr in *;
  cbn [IsValid negb orb fst snd app] in *.

Section Facts.

Variable FJsonObject : Type.
Variable T : UStructType FJsonObject.
Variable E : Engine T.

(** *** Traces only grow *)

Lemma UStructToJsonObject_trace InStruct tr :
  UStructToJsonObject E InStruct tr =
  (result_of (UStructToJsonObject E InStruct),
   tr ++ trace_of (UStructToJsonObject E InStruct)).
Proof.
  run.
  destruct (FJsonObjectConverter_UStructToJsonObject E InStruct) as [Ref|];
    cbn; [|reflexivity].
  destruct (THasPostJsonExport (Scope T)); cbn; [|reflexivity].
  now rewrite <- app_assoc.
Qed.

Lemma UStructToJsonObject_no_Serialize InStruct :
  calls (@is_Serialize _ T) (trace_of (UStructToJsonObject E InStruct)) = 0.
Proof.
  run.
  destruct (FJsonObjectConverter_UStructToJsonObject E InStruct) as [Ref|];
    cbn; [|reflexivity].
  destruct (THasPostJsonExport (Scope T)); reflexivity.
Qed.

(** C1: when [FJsonObjectConverter::JsonObjectToUStruct] reports failure,
    [JsonObjectToUStruct] returns [false], the only call it has made is
    the one to the engine's converter, and [PostJsonImport] has not been
    called; the struct is left as the engine's converter left it. *)
Theorem import_hook_skipped_on_mapper_failure
    (Ref : FJsonObject) (OutStruct OutStruct' : TStruct T) (tr : list (Event T)) :
  FJsonObjectConverter_JsonObjectToUStruct E Ref OutStruct = (false, OutStruct') ->
  JsonObjectToUStruct E (Some Ref) OutStruct tr
    = ((false, OutStruct'), tr ++ [GenericImport Ref OutStruct]) /\
  calls (@is_HookImport _ T)
        (trace_of (JsonObjectToUStruct E (Some Ref) OutStruct)) = 0.
Proof.
  intros Hmap. run. rewrite Hmap. cbn. split; reflexivity.
Qed.

(** C2: when [FJsonObjectConverter::UStructToJsonObject] yields an
    invalid pointer, [UStructToJsonObject] returns an invalid pointer
    after that one call, and [PostJsonExport] has not been called. *)
Theorem export_hook_skipped_on_mapper_failure
    (InStruct : TStruct T) (tr : list (Event T)) :
  IsValid (FJsonObjectConverter_UStructToJsonObject E InStruct) = false ->
  (exists JsonObject,
      UStructToJsonObject E InStruct tr
        = (JsonObject, tr ++ [GenericExport InStruct]) /\
      IsValid JsonObject = false) /\
  calls (@is_HookExport _ T)
        (trace_of (UStructToJsonObject E InStruct)) = 0.
Proof.
  intros Hmap. run.
  destruct (FJsonObjectConverter_UStructToJsonObject E InStruct) as [Ref|];
    [discriminate Hmap|].
  cbn. split; [exists None; split|]; reflexivity.
Qed.

(** C3: on a struct type on which neither detector fires, decoding a
    valid object is the call to the engine's converter and nothing else
    (same flag, same struct, same calls), decoding a null pointer is
    stopped by the guard before any call, and encoding is the call to
    the engine's converter and nothing else. *)
Theorem passthrough_without_hooks :
  THasPostJsonImport (Scope T) = false ->
  THasPostJsonExport (Scope T) = false ->
  (forall Ref OutStruct tr,
      JsonObjectToUStruct E (Some Ref) OutStruct tr
      = call (GenericImport Ref OutStruct)
             (FJsonObjectConverter_JsonObjectToUStruct E Ref OutStruct) tr) /\
  (forall OutStruct tr,
      JsonObjectToUStruct E None OutStruct tr = ((false, OutStruct), tr)) /\
  (forall InStruct tr,
      UStructToJsonObject E InStruct tr
      = call (GenericExport InStruct)
             (FJsonObjectConverter_UStructToJsonObject E InStruct) tr).
Proof.
  intros Himport Hexport. repeat split.
  - intros Ref OutStruct tr. run. rewrite Himport.
    destruct (FJsonObjectConverter_JsonObjectToUStruct E Ref OutStruct)
      as [[|] OutStruct']; reflexivity.
  - intros InStruct tr. run. rewrite Hexport.
    destruct (FJsonObjectConverter_UStructToJsonObject E InStruct);
      reflexivity.
Qed.

(** C5, amended: the pointer [UStructToJsonObject] returns is the engine
    converter's when that one is invalid or when [THasPostJsonExport]
    does not fire, and is the pointer [PostJsonExport] returned
    otherwise.  The result is invalid exactly when the engine's
    converter yields an invalid pointer or the detected hook returns an
    invalid pointer. *)
Theorem export_result_sources (InStruct : TStruct T) :
  let Generic := FJsonObjectConverter_UStructToJsonObject E InStruct in
  let Result := result_of (UStructToJsonObject E InStruct) in
  Result =
    (if IsValid Generic && THasPostJsonExport (Scope T)
     then PostJsonExport T InStruct Generic
     else Generic) /\
  (IsValid Result = false <->
     IsValid Generic = false \/
     (THasPostJsonExport (Scope T) = true /\
      IsValid (PostJsonExport T InStruct Generic) = false)).
Proof.
  cbv zeta. run.
  destruct (FJsonObjectConverter_UStructToJsonObject E InStruct) as [Ref|];
    cbn.
  - destruct (THasPostJsonExport (Scope T)); cbn.
    + split; [reflexivity|]. split.
      * intros H; right; split; [reflexivity | exact H].
      * intros [H | [_ H]]; [discriminate H | exact H].
    + split; [reflexivity|]. split.
      * intros H; discriminate H.
      * intros [H | [H _]]; discriminate H.
  - split; [reflexivity|]. split; intros; [left|]; reflexivity.
Qed.

(** C6, amended: on a struct type on which [THasPostJsonImport] fires, a
    call of [JsonObjectToUStruct] that returns [true] has made two calls, in
    this order: the engine's converter on the referenced object, then
    [PostJsonImport], once, on the struct as the engine's converter left
    it and with the pointer the operation was given. *)
Theorem import_hook_once_after_mapper
    (JsonObject : TSharedPtr FJsonObject) (OutStruct OutStruct' : TStruct T)
    (tr tr' : list (Event T)) :
  THasPostJsonImport (Scope T) = true ->
  JsonObjectToUStruct E JsonObject OutStruct tr = ((true, OutStruct'), tr') ->
  exists Ref Mapped,
    JsonObject = Some Ref /\
    FJsonObjectConverter_JsonObjectToUStruct E Ref OutStruct = (true, Mapped) /\
    tr' = tr ++ [GenericImport Ref OutStruct; HookImport Mapped JsonObject] /\
    OutStruct' = PostJsonImport T Mapped JsonObject /\
    calls (@is_HookImport _ T)
          (trace_of (JsonObjectToUStruct E JsonObject OutStruct)) = 1.
Proof.
  intros Hhas Hrun. run. rewrite Hhas in *.
  destruct JsonObject as [Ref|]; [|discriminate Hrun].
  destruct (FJsonObjectConverter_JsonObjectToUStruct E Ref OutStruct)
    as [[|] Mapped] eqn:Hmap; cbn in *; [|discriminate Hrun].
  injection Hrun as <- <-.
  exists Ref, Mapped. rewrite <- app_assoc.
  split; [reflexivity|]. split; [exact Hmap|].
  split; [reflexivity|]. split; reflexivity.
Qed.

(** C7: [UStructToJsonString] returns [false], leaves [OutJsonString] as
    it was and does not call the writer when [UStructToJsonObject]
    yields an invalid pointer; otherwise it calls
    [FJsonSerializer::Serialize] once on the object and returns the flag
    (and the text) the serializer gives. *)
Theorem UStructToJsonString_follows_writer
    (InStruct : TStruct T) (OutJsonString : FString) (tr : list (Event T)) :
  let Made := trace_of (UStructToJsonObject E InStruct) in
  calls (@is_Serialize _ T) Made = 0 /\
  match result_of (UStructToJsonObject E InStruct) with
  | None =>
      UStructToJsonString E InStruct OutJsonString tr
      = ((false, OutJsonString), tr ++ Made)
  | Some Ref =>
      UStructToJsonString E InStruct OutJsonString tr
      = (FJsonSerializer_Serialize E Ref OutJsonString,
         tr ++ Made ++ [Serialize Ref])
  end.
Proof.
  cbv zeta. split; [apply UStructToJsonObject_no_Serialize|].
  unfold UStructToJsonString, bind.
  rewrite (UStructToJsonObject_trace InStruct tr).
  destruct (result_of (UStructToJsonObject E InStruct)) as [Ref|].
  - unfold call. now rewrite app_assoc.
  - reflexivity.
Qed.

(** C9: when the detected [PostJsonExport] returns an invalid pointer on
    the object the engine's converter produced, [UStructToJsonObject]
    returns that pointer as it is, and [UStructToJsonString] returns
    [false] with [OutJsonString] untouched and without a call to the
    writer. *)
Theorem null_export_hook_fails_encoding
    (InStruct : TStruct T) (Ref : FJsonObject) (OutJsonString : FString)
    (tr : list (Event T)) :
  THasPostJsonExport (Scope T) = true ->
  FJsonObjectConverter_UStructToJsonObject E InStruct = Some Ref ->
  IsValid (PostJsonExport T InStruct (Some Ref)) = false ->
  let Made := [GenericExport InStruct; HookExport InStruct (Some Ref)] in
  UStructToJsonObject E InStruct tr
    = (PostJsonExport T InStruct (Some Ref), tr ++ Made) /\
  UStructToJsonString E InStruct OutJsonString tr
    = ((false, OutJsonString), tr ++ Made) /\
  calls (@is_Serialize _ T)
        (trace_of (UStructToJsonString E InStruct OutJsonString)) = 0.
Proof.
  intros Hhas Hmap Hnull. cbv zeta. run. rewrite Hmap. cbn. rewrite Hhas.
  destruct (PostJsonExport T InStruct (Some Ref)) as [Ref'|];
    [discriminate Hnull|].
  rewrite <- app_assoc. cbn. repeat split.
Qed.

(** C10: for a text whose root value is not an object,
    [JsonStringToUStruct] returns [false] after the call to the
    deserializer; neither the engine's converter nor [PostJsonImport] is
    reached, and [OutStruct] is untouched. *)
Theorem non_object_text_rejected
    (root : FString -> option (JsonRoot FJsonObject))
    (JsonString : FString) (r : JsonRoot FJsonObject)
    (OutStruct : TStruct T) (tr : list (Event T)) :
  Deserialize_faithful E root ->
  root JsonString = Some r ->
  is_RootObject r = false ->
  JsonStringToUStruct E JsonString OutStruct tr
    = ((false, OutStruct), tr ++ [Deserialize JsonString]) /\
  calls (@is_GenericImport _ T)
        (trace_of (JsonStringToUStruct E JsonString OutStruct)) = 0 /\
  calls (@is_HookImport _ T)
        (trace_of (JsonStringToUStruct E JsonString OutStruct)) = 0.
Proof.
  intros Hfaith Hroot Hr. run.
  destruct (FJsonSerializer_Deserialize E JsonString)
    as [[|] [Object|]] eqn:Hparse; cbn; try (repeat split; reflexivity).
  apply Hfaith in Hparse. rewrite Hroot in Hparse.
  injection Hparse as ->. discriminate Hr.
Qed.

(** C4, amended: on a struct type on which both detectors fire, whose
    import hook inverts its export hook on the fields the hooks manage, with
    an engine converter
    that reads the declared fields back and a text codec that reads back
    what it writes: whenever [UStructToJsonString] produces a text for
    [x], [JsonStringToUStruct] on that text returns [true] and leaves
    [x] in [OutStruct], whatever [OutStruct] held before. *)
Theorem text_roundtrip
    (Declared Managed : Type)
    (declared : TStruct T -> Declared) (managed : TStruct T -> Managed)
    (x OutStruct : TStruct T) (OutJsonString Text : FString)
    (tr tr' : list (Event T)) :
  THasPostJsonImport (Scope T) = true ->
  THasPostJsonExport (Scope T) = true ->
  Fields_determine_struct declared managed ->
  Declared_fields_read_back E declared ->
  Import_inverts_export declared managed ->
  Codec_roundtrip E ->
  UStructToJsonString E x OutJsonString tr = ((true, Text), tr') ->
  exists tr'',
    JsonStringToUStruct E Text OutStruct tr' = ((true, x), tr'').
Proof.
  intros Himport Hexport Hfields Hread Hinv Hcodec Hencode.
  run. rewrite Himport, Hexport in *.
  destruct (FJsonObjectConverter_UStructToJsonObject E x) as [Ref|] eqn:Hgen;
    cbn in Hencode; [|discriminate Hencode].
  destruct (PostJsonExport T x (Some Ref)) as [Ref'|] eqn:Hhook;
    [|discriminate Hencode].
  injection Hencode as Hwrite Htr.
  rewrite (Hcodec Ref' OutJsonString Text Hwrite). cbn.
  destruct (Hread x OutStruct Ref Ref' Hgen Hhook) as [Mapped [Hmap Hdecl]].
  rewrite Hmap. cbn. eexists. f_equal. f_equal.
  destruct (Hinv x Mapped (Some Ref) Ref' Hhook) as [Hm Hd].
  apply Hfields; congruence.
Qed.

End Facts.

(** *** The sample struct types meet the contracts *)

Import Sample.
Local Open Scope string_scope.

Lemma Item_fields_determine_struct : Fields_determine_struct (T := ItemType) Name Tags.
Proof.
  intros [n t] [n' t'] Hn Ht. cbn in *. congruence.
Qed.

Lemma Item_declared_fields_read_back : Declared_fields_read_back ItemEngine Name.
Proof.
  intros x OutStruct Ref Ref' Hgen Hhook. cbn in *.
  unfold Item_UStructToJsonObject in Hgen. injection Hgen as <-.
  injection Hhook as <-.
  exists (MkItem (Name x) (Tags OutStruct)). split; reflexivity.
Qed.

Lemma Item_import_inverts_export : Import_inverts_export (T := ItemType) Name Tags.
Proof.
  intros x Struct [Object|] Ref' Hhook; cbn in *; [|discriminate Hhook].
  injection Hhook as <-. split; reflexivity.
Qed.

Lemma Table_codec_roundtrip : Codec_roundtrip ItemEngine.
Proof.
  intros Ref Out Text Hwrite. cbn in *. unfold Table_Serialize in Hwrite.
  destruct (FJsonObject_eq_dec Ref item_a_json) as [-> | _];
    [|discriminate Hwrite].
  injection Hwrite as <-. reflexivity.
Qed.

Lemma Table_deserialize_faithful : Deserialize_faithful ItemEngine Table_root.
Proof.
  intros JsonString Object Hparse. cbn in Hparse.
  unfold Table_Deserialize, Table_root in *.
  destruct (String.eqb JsonString item_a_text); [|discriminate Hparse].
  injection Hparse as <-. reflexivity.
Qed.

(** *** The scenarios of the specification, run on the model *)

(** The item named [a] with tags [x], [y] encodes to the text with both keys. *)
Example encode_item_a :
  UStructToJsonString ItemEngine item_a "" []
  = ((true, item_a_text),
     [GenericExport (T := ItemType) item_a;
      HookExport (T := ItemType) item_a (Some [("name", JsonString "a")]);
      Serialize item_a_json]).
Proof. reflexivity. Qed.

(** Decoding that text gives the tags back. *)
Example decode_item_a :
  result_of (JsonStringToUStruct ItemEngine item_a_text blank) = (true, item_a).
Proof. reflexivity. Qed.

(** An object whose [name] is the number 123 is refused, and the import
    hook is not called. *)
Example decode_mistyped :
  result_of (JsonObjectToUStruct ItemEngine (Some mistyped_json) blank)
    = (false, blank) /\
  calls (@is_HookImport _ ItemType)
        (trace_of (JsonObjectToUStruct ItemEngine (Some mistyped_json) blank)) = 0.
Proof. split; reflexivity. Qed.

Example detectors_on_samples :
  THasPostJsonImport FItem_scope = true /\
  THasPostJsonExport FItem_scope = true /\
  THasPostJsonImport FPlain_scope = false /\
  THasPostJsonExport FPlain_scope = false /\
  THasPostJsonExport FLabelled_scope = true /\
  declares_export_hook FLabelled_scope = false.
Proof. repeat split. Qed.

(** *** Instances of the theorems above *)

Lemma import_hook_skipped_on_mistyped_name :
  FJsonObjectConverter_JsonObjectToUStruct ItemEngine mistyped_json blank
    = (false, blank) /\
  (JsonObjectToUStruct ItemEngine (Some mistyped_json) blank []
     = ((false, blank),
        ([] ++ [GenericImport (T := ItemType) mistyped_json blank])%list) /\
   calls (@is_HookImport _ ItemType)
         (trace_of (JsonObjectToUStruct ItemEngine (Some mistyped_json) blank)) = 0).
Proof.
  split; [reflexivity|].
  apply (@import_hook_skipped_on_mapper_failure _ _ ItemEngine
           mistyped_json blank blank []).
  reflexivity.
Defined.

Lemma export_hook_skipped_on_unmapped_struct :
  IsValid (FJsonObjectConverter_UStructToJsonObject UnmappedEngine item_a) = false /\
  ((exists JsonObject,
       UStructToJsonObject UnmappedEngine item_a []
         = (JsonObject, ([] ++ [GenericExport (T := ItemType) item_a])%list) /\
       IsValid JsonObject = false) /\
   calls (@is_HookExport _ ItemType)
         (trace_of (UStructToJsonObject UnmappedEngine item_a)) = 0).
Proof.
  split; [reflexivity|].
  apply (@export_hook_skipped_on_mapper_failure _ _ UnmappedEngine item_a []).
  reflexivity.
Defined.

Lemma passthrough_on_plain_struct :
  (THasPostJsonImport (Scope PlainType) = false /\
   THasPostJsonExport (Scope PlainType) = false) /\
  ((forall Ref OutStruct tr,
       JsonObjectToUStruct PlainEngine (Some Ref) OutStruct tr
       = call (GenericImport Ref OutStruct)
              (FJsonObjectConverter_JsonObjectToUStruct PlainEngine Ref OutStruct) tr) /\
   (forall OutStruct tr,
       JsonObjectToUStruct PlainEngine None OutStruct tr = ((false, OutStruct), tr)) /\
   (forall InStruct tr,
       UStructToJsonObject PlainEngine InStruct tr
       = call (GenericExport InStruct)
              (FJsonObjectConverter_UStructToJsonObject PlainEngine InStruct) tr)).
Proof.
  split; [split; reflexivity|].
  apply (@passthrough_without_hooks _ _ PlainEngine); reflexivity.
Defined.

Lemma import_hook_once_on_item_a :
  (THasPostJsonImport (Scope ItemType) = true /\
   JsonObjectToUStruct ItemEngine (Some item_a_json) blank []
     = ((true, item_a),
        [GenericImport (T := ItemType) item_a_json blank;
         HookImport (T := ItemType) (MkItem "a" []) (Some item_a_json)])) /\
  (exists Ref Mapped,
      Some item_a_json = Some Ref /\
      FJsonObjectConverter_JsonObjectToUStruct ItemEngine Ref blank = (true, Mapped) /\
      [GenericImport (T := ItemType) item_a_json blank;
       HookImport (T := ItemType) (MkItem "a" []) (Some item_a_json)]
      = ([] ++ [GenericImport (T := ItemType) Ref blank;
                HookImport Mapped (Some item_a_json)])%list /\
      item_a = PostJsonImport ItemType Mapped (Some item_a_json) /\
      calls (@is_HookImport _ ItemType)
            (trace_of (JsonObjectToUStruct ItemEngine (Some item_a_json) blank)) = 1).
Proof.
  split; [split; reflexivity|].
  apply (@import_hook_once_after_mapper _ _ ItemEngine
           (Some item_a_json) blank item_a []); reflexivity.
Defined.

Lemma null_export_hook_on_silent_struct :
  (THasPostJsonExport (Scope SilentType) = true /\
   FJsonObjectConverter_UStructToJsonObject SilentEngine item_a
     = Some [("name", JsonString "a")] /\
   IsValid (PostJsonExport SilentType item_a (Some [("name", JsonString "a")]))
     = false) /\
  (let Made := [GenericExport (T := SilentType) item_a;
                HookExport (T := SilentType) item_a
                           (Some [("name", JsonString "a")])] in
   UStructToJsonObject SilentEngine item_a []
     = (PostJsonExport SilentType item_a (Some [("name", JsonString "a")]),
        ([] ++ Made)%list) /\
   UStructToJsonString SilentEngine item_a "kept" []
     = ((false, "kept"), ([] ++ Made)%list) /\
   calls (@is_Serialize _ SilentType)
         (trace_of (UStructToJsonString SilentEngine item_a "kept")) = 0).
Proof.
  split; [repeat split|].
  apply (@null_export_hook_fails_encoding _ _ SilentEngine item_a
           [("name", JsonString "a")] "kept" []); reflexivity.
Defined.

Lemma array_text_rejected :
  (Deserialize_faithful ItemEngine Table_root /\
   Table_root array_text = Some RootArray /\
   is_RootObject (@RootArray FJsonObject) = false) /\
  (JsonStringToUStruct ItemEngine array_text blank []
     = ((false, blank), ([] ++ [Deserialize (T := ItemType) array_text])%list) /\
   calls (@is_GenericImport _ ItemType)
         (trace_of (JsonStringToUStruct ItemEngine array_text blank)) = 0 /\
   calls (@is_HookImport _ ItemType)
         (trace_of (JsonStringToUStruct ItemEngine array_text blank)) = 0).
Proof.
  split; [split; [exact Table_deserialize_faithful | split; reflexivity]|].
  apply (@non_object_text_rejected _ _ ItemEngine Table_root array_text RootArray
           blank []);
    [exact Table_deserialize_faithful | reflexivity | reflexivity].
Defined.

Lemma text_roundtrip_on_item_a :
  UStructToJsonString ItemEngine item_a "" []
    = ((true, item_a_text),
       [GenericExport (T := ItemType) item_a;
        HookExport (T := ItemType) item_a (Some [("name", JsonString "a")]);
        Serialize item_a_json]) /\
  (exists tr'',
      JsonStringToUStruct ItemEngine item_a_text blank
        [GenericExport (T := ItemType) item_a;
         HookExport (T := ItemType) item_a (Some [("name", JsonString "a")]);
         Serialize item_a_json]
      = ((true, item_a), tr'')).
Proof.
  split; [reflexivity|].
  apply (@text_roundtrip _ _ ItemEngine _ _ Name Tags item_a blank "" item_a_text []);
    [ reflexivity | reflexivity
    | exact Item_fields_determine_struct
    | exact Item_declared_fields_read_back
    | exact Item_import_inverts_export
    | exact Table_codec_roundtrip
    | reflexivity ].
Defined.

(** C5, as the claim states it: an invalid result of [UStructToJsonObject]
    would imply that the engine's converter failed.  On [FSilent] the
    engine's converter yields a valid object and the result is invalid,
    because [PostJsonExport] returned a null pointer. *)
Lemma invalid_result_without_mapper_failure :
  ~ (IsValid (result_of (UStructToJsonObject SilentEngine item_a)) = false ->
     IsValid (FJsonObjectConverter_UStructToJsonObject SilentEngine item_a) = false).
Proof.
  intros H. specialize (H eq_refl). discriminate H.
Qed.

(** *** Declared hooks that are not detected *)

Lemma Pair_declared_fields_read_back :
  Declared_fields_read_back OverloadedPairEngine Name.
Proof.
  intros x OutStruct Ref Ref' Hgen Hhook. cbn in *.
  unfold Item_UStructToJsonObject in Hgen. injection Hgen as <-.
  injection Hhook as <-.
  exists (MkItem (Name x) (Tags OutStruct)). split; reflexivity.
Qed.

Lemma Pair_import_inverts_export :
  Import_inverts_export (T := OverloadedPairType) Name Tags.
Proof.
  intros x Struct [Object|] Ref' Hhook; cbn in *; [|discriminate Hhook].
  injection Hhook as <-. split; reflexivity.
Qed.

Lemma Pair_codec_roundtrip : Codec_roundtrip OverloadedPairEngine.
Proof.
  intros Ref Out Text Hwrite. cbn in *. unfold Table_Serialize in Hwrite.
  destruct (FJsonObject_eq_dec Ref item_a_json) as [-> | _];
    [|discriminate Hwrite].
  injection Hwrite as <-. reflexivity.
Qed.

(** C6, as the claim states it: on a struct type that defines an import
    hook, a successful [JsonObjectToUStruct] would have called the hook
    once.  [FOverloaded] declares the documented hook next to an overload;
    [JsonObjectToUStruct] returns [true] on it and no hook call is made. *)
Lemma declared_import_hook_not_invoked :
  ~ (declares_import_hook (Scope OverloadedType) = true ->
     fst (result_of (JsonObjectToUStruct OverloadedEngine (Some item_a_json) blank))
       = true ->
     calls (@is_HookImport _ OverloadedType)
           (trace_of (JsonObjectToUStruct OverloadedEngine (Some item_a_json) blank))
       = 1).
Proof.
  intros H. specialize (H eq_refl eq_refl). discriminate H.
Qed.

(** C4, as the claim states it: on a struct type that defines both hooks,
    the import hook being the inverse of the export hook on the managed
    fields, the text produced for [x] would decode to [x].
    [FOverloadedPair] declares both documented hooks and an overload of
    [PostJsonImport]: the export hook writes the tags into the text, the
    import hook is not called on the way back, and the tags are lost. *)
Lemma roundtrip_loses_managed_fields :
  ~ (declares_import_hook (Scope OverloadedPairType) = true ->
     declares_export_hook (Scope OverloadedPairType) = true ->
     Fields_determine_struct (T := OverloadedPairType) Name Tags ->
     Declared_fields_read_back OverloadedPairEngine Name ->
     Import_inverts_export (T := OverloadedPairType) Name Tags ->
     Codec_roundtrip OverloadedPairEngine ->
     forall tr',
       UStructToJsonString OverloadedPairEngine item_a "" []
         = ((true, item_a_text), tr') ->
       exists tr'',
         JsonStringToUStruct OverloadedPairEngine item_a_text blank tr'
           = ((true, item_a), tr'')).
Proof.
  intros H.
  destruct (H eq_refl eq_refl Item_fields_determine_struct
              Pair_declared_fields_read_back Pair_import_inverts_export
              Pair_codec_roundtrip _ eq_refl) as [tr'' Hdecode].
  cbv in Hdecode. discriminate Hdecode.
Qed.

(** What the two calls give on [FOverloadedPair]. *)
Example overloaded_pair_runs :
  UStructToJsonString OverloadedPairEngine item_a "" []
    = ((true, item_a_text),
       [GenericExport (T := OverloadedPairType) item_a;
        HookExport (T := OverloadedPairType) item_a
                   (Some [("name", JsonString "a")]);
        Serialize item_a_json]) /\
  JsonStringToUStruct OverloadedPairEngine item_a_text blank []
    = ((true, MkItem "a" []),
       [Deserialize (T := OverloadedPairType) item_a_text;
        GenericImport (T := OverloadedPairType) item_a_json blank]).
Proof. split; reflexivity. Qed.

End ConverterFacts.

(* ================================================================= *)
(** ** Further properties: detection, single pass, composition *)

Module Laws.

Import Traits Converter.
Local Open Scope string_scope.
Local Open Scope list_scope.

(** Unfolds the templates and the trace monad down to the engine calls. *)
Ltac unfold_templates :=
  unfold JsonStringToUStruct, UStructToJsonString,
         JsonObjectToUStruct, UStructToJsonObject,
         CallPostJsonImportIfExists, CallPostJsonExportIfExists,
         trace_of, result_of, calls, bind, call, ret, nullptr in *;
  cbn [IsValid negb orb fst snd app] in *.

(** *** The detectors on overload sets and on members that are not public *)

Lemma sizeof_Test_No (param : option PointerType) :
  param = None -> Nat.eqb (sizeof_Test param) sizeof_YesType = false.
Proof. intros ->. reflexivity. Qed.

Lemma decltype_of_overload_set (T : ClassScope) (Name : string) :
  2 <= List.length (lookup T Name) -> decltype_address_of T Name = None.
Proof.
  unfold decltype_address_of.
  destruct (lookup T Name) as [|m [|m' rest]]; cbn; intros Hlen;
    [lia | lia | reflexivity].
Qed.

Lemma decltype_of_hidden_member (T : ClassScope) (Name : string) (m : MemberDecl) :
  lookup T Name = [m] -> member_access m <> Public ->
  befriends_converter T = false ->
  decltype_address_of T Name = None.
Proof.
  unfold decltype_address_of, address_of, accessible. intros -> Hacc ->.
  destruct (member_access m); [contradiction Hacc|..]; reflexivity.
Qed.

Section OnTemplates.

Variable FJsonObject : Type.
Variable T : UStructType FJsonObject.
Variable E : Engine T.

(** X1: the flag [JsonObjectToUStruct] returns is [false] on a null
    pointer and the flag of [FJsonObjectConverter::JsonObjectToUStruct]
    otherwise: the import hook has no way to make the conversion fail. *)
Theorem import_hook_cannot_change_flag
    (JsonObject : TSharedPtr FJsonObject) (OutStruct : TStruct T) :
  fst (result_of (JsonObjectToUStruct E JsonObject OutStruct)) =
  match JsonObject with
  | Some Ref => fst (FJsonObjectConverter_JsonObjectToUStruct E Ref OutStruct)
  | None => false
  end.
Proof.
  unfold_templates. destruct JsonObject as [Ref|]; [|reflexivity].
  destruct (FJsonObjectConverter_JsonObjectToUStruct E Ref OutStruct)
    as [[|] Mapped]; cbn; [|reflexivity].
  destruct (THasPostJsonImport (Scope T)); reflexivity.
Qed.

(** X2: when [FJsonSerializer::Deserialize] reports failure, or reports
    success and leaves a null pointer, [JsonStringToUStruct] returns
    [false], leaves [OutStruct] untouched and has made no call but the one
    to the deserializer. *)
Theorem parse_failure_leaves_struct
    (JsonString : FString) (OutStruct : TStruct T) (tr : list (Event T)) :
  fst (FJsonSerializer_Deserialize E JsonString) = false \/
  IsValid (snd (FJsonSerializer_Deserialize E JsonString)) = false ->
  JsonStringToUStruct E JsonString OutStruct tr
    = ((false, OutStruct), tr ++ [Deserialize JsonString]).
Proof.
  intros Hfail. unfold_templates.
  destruct (FJsonSerializer_Deserialize E JsonString) as [[|] [Object|]];
    cbn in *; try reflexivity.
  destruct Hfail as [H | H]; discriminate H.
Qed.

(** X3: [JsonStringToUStruct] returns [true] exactly when the deserializer
    reports success with a valid object and the engine's converter accepts
    that object; the calls are then the deserializer, the engine's
    converter and, when detected, [PostJsonImport] on the parsed object,
    and [OutStruct] holds what the last of them left. *)
Theorem text_decode_succeeds_iff
    (JsonString : FString) (OutStruct OutStruct' : TStruct T)
    (tr tr' : list (Event T)) :
  JsonStringToUStruct E JsonString OutStruct tr = ((true, OutStruct'), tr')
  <->
  exists Ref Mapped,
    FJsonSerializer_Deserialize E JsonString = (true, Some Ref) /\
    FJsonObjectConverter_JsonObjectToUStruct E Ref OutStruct = (true, Mapped) /\
    OutStruct' = (if THasPostJsonImport (Scope T)
                  then PostJsonImport T Mapped (Some Ref) else Mapped) /\
    tr' = (tr ++ Deserialize JsonString :: GenericImport Ref OutStruct ::
             (if THasPostJsonImport (Scope T)
              then [HookImport Mapped (Some Ref)] else []))%list.
Proof.
  unfold_templates. split.
  - destruct (FJsonSerializer_Deserialize E JsonString) as [[|] [Ref|]];
      cbn; try (intros H; discriminate H).
    destruct (FJsonObjectConverter_JsonObjectToUStruct E Ref OutStruct)
      as [[|] Mapped] eqn:Hmap; cbn; [|intros H; discriminate H].
    intros H. exists Ref, Mapped.
    destruct (THasPostJsonImport (Scope T)); injection H as <- <-;
      repeat rewrite <- app_assoc; cbn; auto.
  - intros [Ref [Mapped [Hparse [Hmap [-> ->]]]]].
    rewrite Hparse. cbn. rewrite Hmap. cbn.
    destruct (THasPostJsonImport (Scope T));
      repeat rewrite <- app_assoc; reflexivity.
Qed.

(** X4: on a struct type on which [THasPostJsonExport] fires, when the
    engine's converter yields a valid object, [UStructToJsonObject] calls
    [PostJsonExport] once, on [InStruct] and with the pointer the engine's
    converter produced, and returns what the hook returns. *)
Theorem export_hook_once_with_mapper_value
    (InStruct : TStruct T) (Ref : FJsonObject) (tr : list (Event T)) :
  THasPostJsonExport (Scope T) = true ->
  FJsonObjectConverter_UStructToJsonObject E InStruct = Some Ref ->
  UStructToJsonObject E InStruct tr
    = (PostJsonExport T InStruct (Some Ref),
       (tr ++ [GenericExport InStruct; HookExport InStruct (Some Ref)])%list) /\
  calls (@is_HookExport _ T) (trace_of (UStructToJsonObject E InStruct)) = 1.
Proof.
  intros Hhas Hmap. unfold_templates. rewrite Hmap. cbn. rewrite Hhas.
  rewrite <- app_assoc. split; reflexivity.
Qed.

(** X5: a call of [JsonStringToUStruct] is a single pass: one call to the
    deserializer, at most one to the engine's converter, a hook call only
    after a converter call, and no call on the export side. *)
Theorem decode_is_single_pass (JsonString : FString) (OutStruct : TStruct T) :
  let Made := trace_of (JsonStringToUStruct E JsonString OutStruct) in
  calls (@is_Deserialize _ T) Made = 1 /\
  calls (@is_GenericImport _ T) Made <= 1 /\
  calls (@is_HookImport _ T) Made <= calls (@is_GenericImport _ T) Made /\
  calls (@is_GenericExport _ T) Made = 0 /\
  calls (@is_HookExport _ T) Made = 0 /\
  calls (@is_Serialize _ T) Made = 0.
Proof.
  cbv zeta. unfold_templates.
  destruct (FJsonSerializer_Deserialize E JsonString) as [[|] [Ref|]];
    cbn; try (repeat split; lia).
  destruct (FJsonObjectConverter_JsonObjectToUStruct E Ref OutStruct)
    as [[|] Mapped]; cbn; try (repeat split; lia).
  destruct (THasPostJsonImport (Scope T)); cbn; repeat split; lia.
Qed.

(** X6: a call of [UStructToJsonString] is a single pass: one call to the
    engine's converter, at most one to [PostJsonExport], at most one to the
    writer, and no call on the import side. *)
Theorem encode_is_single_pass (InStruct : TStruct T) (OutJsonString : FString) :
  let Made := trace_of (UStructToJsonString E InStruct OutJsonString) in
  calls (@is_GenericExport _ T) Made = 1 /\
  calls (@is_HookExport _ T) Made <= 1 /\
  calls (@is_Serialize _ T) Made <= 1 /\
  calls (@is_Deserialize _ T) Made = 0 /\
  calls (@is_GenericImport _ T) Made = 0 /\
  calls (@is_HookImport _ T) Made = 0.
Proof.
  cbv zeta. unfold_templates.
  destruct (FJsonObjectConverter_UStructToJsonObject E InStruct) as [Ref|];
    cbn; try (repeat split; lia).
  destruct (THasPostJsonExport (Scope T)); cbn.
  - destruct (PostJsonExport T InStruct (Some Ref)) as [Ref'|];
      cbn; repeat split; lia.
  - repeat split; lia.
Qed.

(** X14: when the deserializer delivers a valid object and the engine's
    converter refuses it, [JsonStringToUStruct] returns [false] after these
    two calls, without a call to [PostJsonImport], and [OutStruct] is what
    the engine's converter left, which need not be what it was. *)
Theorem text_decode_mapper_failure
    (JsonString : FString) (Ref : FJsonObject)
    (OutStruct OutStruct' : TStruct T) (tr : list (Event T)) :
  FJsonSerializer_Deserialize E JsonString = (true, Some Ref) ->
  FJsonObjectConverter_JsonObjectToUStruct E Ref OutStruct = (false, OutStruct') ->
  JsonStringToUStruct E JsonString OutStruct tr
    = ((false, OutStruct'),
       tr ++ [Deserialize JsonString; GenericImport Ref OutStruct]) /\
  calls (@is_HookImport _ T)
        (trace_of (JsonStringToUStruct E JsonString OutStruct)) = 0.
Proof.
  intros Hparse Hmap. unfold_templates. rewrite Hparse. cbn. rewrite Hmap. cbn.
  rewrite <- app_assoc. split; reflexivity.
Qed.

(** X7: [UStructToJsonString] returns [true] with a text exactly when the
    engine's converter yields a valid object, the detected export hook (if
    any) returns a valid object, and the writer reports success on that
    object; the text is the writer's, and the writer is the last call. *)
Theorem text_encode_succeeds_iff
    (InStruct : TStruct T) (OutJsonString Text : FString)
    (tr tr' : list (Event T)) :
  UStructToJsonString E InStruct OutJsonString tr = ((true, Text), tr')
  <->
  exists Ref Ref',
    FJsonObjectConverter_UStructToJsonObject E InStruct = Some Ref /\
    (if THasPostJsonExport (Scope T)
     then PostJsonExport T InStruct (Some Ref) else Some Ref) = Some Ref' /\
    FJsonSerializer_Serialize E Ref' OutJsonString = (true, Text) /\
    tr' = tr ++ GenericExport InStruct ::
            (if THasPostJsonExport (Scope T)
             then [HookExport InStruct (Some Ref)] else [])
            ++ [Serialize Ref'].
Proof.
  unfold_templates. split.
  - destruct (FJsonObjectConverter_UStructToJsonObject E InStruct) as [Ref|];
      cbn; [|intros H; discriminate H].
    destruct (THasPostJsonExport (Scope T)); cbn.
    + destruct (PostJsonExport T InStruct (Some Ref)) as [Ref'|] eqn:Hhook;
        [|intros H; discriminate H].
      intros H. injection H as Hwrite <-. exists Ref, Ref'.
      repeat rewrite <- app_assoc. cbn. auto.
    + intros H. injection H as Hwrite <-. exists Ref, Ref.
      repeat rewrite <- app_assoc. cbn. auto.
  - intros [Ref [Ref' [Hmap [Hhook [Hwrite ->]]]]].
    rewrite Hmap. cbn.
    destruct (THasPostJsonExport (Scope T)); cbn.
    + rewrite Hhook, Hwrite. repeat rewrite <- app_assoc. reflexivity.
    + injection Hhook as ->. rewrite Hwrite.
      repeat rewrite <- app_assoc. reflexivity.
Qed.

(** X8: when a struct type declares [PostJsonImport] more than once (an
    overload set), [THasPostJsonImport] yields [false] and
    [JsonObjectToUStruct] on a valid object is the engine's converter
    alone: no overload is called, also when one of them has the documented
    signature. *)
Theorem overloaded_import_hook_is_skipped :
  2 <= List.length (lookup (Scope T) "PostJsonImport") ->
  THasPostJsonImport (Scope T) = false /\
  forall Ref OutStruct tr,
    JsonObjectToUStruct E (Some Ref) OutStruct tr
    = call (GenericImport Ref OutStruct)
           (FJsonObjectConverter_JsonObjectToUStruct E Ref OutStruct) tr.
Proof.
  intros Hlen.
  assert (Hno : THasPostJsonImport (Scope T) = false)
    by (apply sizeof_Test_No, decltype_of_overload_set, Hlen).
  split; [exact Hno|].
  intros Ref OutStruct tr. unfold_templates. rewrite Hno.
  destruct (FJsonObjectConverter_JsonObjectToUStruct E Ref OutStruct)
    as [[|] Mapped]; reflexivity.
Qed.

(** X9: when the one [PostJsonExport] of a struct type is private or
    protected and the struct does not declare [FEnhancedJsonConverter] a
    friend, [THasPostJsonExport] yields [false] and [UStructToJsonObject]
    is the engine's converter alone: the hook is not called. *)
Theorem hidden_export_hook_is_skipped (m : MemberDecl) :
  lookup (Scope T) "PostJsonExport" = [m] ->
  member_access m <> Public ->
  befriends_converter (Scope T) = false ->
  THasPostJsonExport (Scope T) = false /\
  forall InStruct tr,
    UStructToJsonObject E InStruct tr
    = call (GenericExport InStruct)
           (FJsonObjectConverter_UStructToJsonObject E InStruct) tr.
Proof.
  intros Hone Hacc Hfriend.
  assert (Hno : THasPostJsonExport (Scope T) = false)
    by (apply sizeof_Test_No, (decltype_of_hidden_member _ _ Hone Hacc Hfriend)).
  split; [exact Hno|].
  intros InStruct tr. unfold_templates. rewrite Hno.
  destruct (FJsonObjectConverter_UStructToJsonObject E InStruct); reflexivity.
Qed.

(** X10: on a struct type on which both detectors fire, whose import hook
    inverts its export hook on the managed fields and whose declared fields
    the
    engine's converter reads back: whenever [UStructToJsonObject] returns a
    valid object for [x], [JsonObjectToUStruct] on that object returns
    [true] and leaves [x] in [OutStruct], whatever it held before. *)
Theorem object_roundtrip
    (Declared Managed : Type)
    (declared : TStruct T -> Declared) (managed : TStruct T -> Managed)
    (x OutStruct : TStruct T) (Ref' : FJsonObject) (tr tr' : list (Event T)) :
  THasPostJsonImport (Scope T) = true ->
  THasPostJsonExport (Scope T) = true ->
  Fields_determine_struct declared managed ->
  Declared_fields_read_back E declared ->
  Import_inverts_export declared managed ->
  UStructToJsonObject E x tr = (Some Ref', tr') ->
  exists Mapped,
    JsonObjectToUStruct E (Some Ref') OutStruct tr'
    = ((true, x),
       tr' ++ [GenericImport Ref' OutStruct; HookImport Mapped (Some Ref')]).
Proof.
  intros Himport Hexport Hfields Hread Hinv Hencode.
  unfold_templates. rewrite Himport, Hexport in *.
  destruct (FJsonObjectConverter_UStructToJsonObject E x) as [Ref|] eqn:Hgen;
    cbn in Hencode; [|discriminate Hencode].
  injection Hencode as Hhook _.
  destruct (Hread x OutStruct Ref Ref' Hgen Hhook) as [Mapped [Hmap Hdecl]].
  exists Mapped. rewrite Hmap. cbn. rewrite <- app_assoc. cbn.
  f_equal. f_equal.
  destruct (Hinv x Mapped (Some Ref) Ref' Hhook) as [Hm Hd].
  apply Hfields; congruence.
Qed.

(** X11: on a struct type without a detected export hook,
    [UStructToJsonObject] is the engine's converter alone, same pointer and
    same calls, whether or not the type has an import hook. *)
Theorem encode_ignores_import_hook
    (InStruct : TStruct T) (tr : list (Event T)) :
  THasPostJsonExport (Scope T) = false ->
  UStructToJsonObject E InStruct tr
  = call (GenericExport InStruct)
         (FJsonObjectConverter_UStructToJsonObject E InStruct) tr.
Proof.
  intros Hno. unfold_templates. rewrite Hno.
  destruct (FJsonObjectConverter_UStructToJsonObject E InStruct); reflexivity.
Qed.

(** X12: on a struct type without a detected import hook,
    [JsonObjectToUStruct] on a valid object is the engine's converter
    alone, same flag, same struct and same calls, whether or not the type
    has an export hook. *)
Theorem decode_ignores_export_hook
    (Ref : FJsonObject) (OutStruct : TStruct T) (tr : list (Event T)) :
  THasPostJsonImport (Scope T) = false ->
  JsonObjectToUStruct E (Some Ref) OutStruct tr
  = call (GenericImport Ref OutStruct)
         (FJsonObjectConverter_JsonObjectToUStruct E Ref OutStruct) tr.
Proof.
  intros Hno. unfold_templates. rewrite Hno.
  destruct (FJsonObjectConverter_JsonObjectToUStruct E Ref OutStruct)
    as [[|] Mapped]; reflexivity.
Qed.

End OnTemplates.

(** *** Instances on the sample struct types *)

Import Sample.

Lemma parse_failure_on_array_text :
  fst (FJsonSerializer_Deserialize ItemEngine array_text) = false /\
  JsonStringToUStruct ItemEngine array_text item_a []
    = ((false, item_a), [] ++ [Deserialize (T := ItemType) array_text]).
Proof.
  split; [reflexivity|].
  apply (@parse_failure_leaves_struct _ _ ItemEngine array_text item_a []).
  left. reflexivity.
Defined.

Lemma text_decode_of_mistyped_text :
  (FJsonSerializer_Deserialize MistypedEngine mistyped_text
     = (true, Some mistyped_json) /\
   FJsonObjectConverter_JsonObjectToUStruct MistypedEngine mistyped_json blank
     = (false, blank)) /\
  (JsonStringToUStruct MistypedEngine mistyped_text blank []
     = ((false, blank),
        [] ++ [Deserialize (T := ItemType) mistyped_text;
               GenericImport (T := ItemType) mistyped_json blank]) /\
   calls (@is_HookImport _ ItemType)
         (trace_of (JsonStringToUStruct MistypedEngine mistyped_text blank)) = 0).
Proof.
  split; [split; reflexivity|].
  apply (@text_decode_mapper_failure _ _ MistypedEngine mistyped_text
           mistyped_json blank blank []); reflexivity.
Defined.

Lemma text_decode_of_item_a :
  JsonStringToUStruct ItemEngine item_a_text blank []
    = ((true, item_a),
       [Deserialize (T := ItemType) item_a_text;
        GenericImport (T := ItemType) item_a_json blank;
        HookImport (T := ItemType) (MkItem "a" []) (Some item_a_json)]) /\
  exists Ref Mapped,
    FJsonSerializer_Deserialize ItemEngine item_a_text = (true, Some Ref) /\
    FJsonObjectConverter_JsonObjectToUStruct ItemEngine Ref blank = (true, Mapped) /\
    item_a = (if THasPostJsonImport (Scope ItemType)
              then PostJsonImport ItemType Mapped (Some Ref) else Mapped) /\
    [Deserialize (T := ItemType) item_a_text;
     GenericImport (T := ItemType) item_a_json blank;
     HookImport (T := ItemType) (MkItem "a" []) (Some item_a_json)]
    = [] ++ Deserialize (T := ItemType) item_a_text ::
        GenericImport (T := ItemType) Ref blank ::
        (if THasPostJsonImport (Scope ItemType)
         then [HookImport Mapped (Some Ref)] else []).
Proof.
  split; [reflexivity|].
  apply (proj1 (@text_decode_succeeds_iff _ _ ItemEngine item_a_text blank item_a
                  [] _)).
  reflexivity.
Defined.

Lemma export_hook_once_on_item_a :
  (THasPostJsonExport (Scope ItemType) = true /\
   FJsonObjectConverter_UStructToJsonObject ItemEngine item_a
     = Some [("name", JsonString "a")]) /\
  (UStructToJsonObject ItemEngine item_a []
     = (PostJsonExport ItemType item_a (Some [("name", JsonString "a")]),
        [] ++ [GenericExport (T := ItemType) item_a;
               HookExport (T := ItemType) item_a
                          (Some [("name", JsonString "a")])]) /\
   calls (@is_HookExport _ ItemType)
         (trace_of (UStructToJsonObject ItemEngine item_a)) = 1).
Proof.
  split; [split; reflexivity|].
  apply (@export_hook_once_with_mapper_value _ _ ItemEngine item_a
           [("name", JsonString "a")] []); reflexivity.
Defined.

Lemma text_encode_of_item_a :
  UStructToJsonString ItemEngine item_a "" []
    = ((true, item_a_text),
       [GenericExport (T := ItemType) item_a;
        HookExport (T := ItemType) item_a (Some [("name", JsonString "a")]);
        Serialize item_a_json]) /\
  exists Ref Ref',
    FJsonObjectConverter_UStructToJsonObject ItemEngine item_a = Some Ref /\
    (if THasPostJsonExport (Scope ItemType)
     then PostJsonExport ItemType item_a (Some Ref) else Some Ref) = Some Ref' /\
    FJsonSerializer_Serialize ItemEngine Ref' "" = (true, item_a_text) /\
    [GenericExport (T := ItemType) item_a;
     HookExport (T := ItemType) item_a (Some [("name", JsonString "a")]);
     Serialize item_a_json]
    = [] ++ GenericExport (T := ItemType) item_a ::
        (if THasPostJsonExport (Scope ItemType)
         then [HookExport (T := ItemType) item_a (Some Ref)] else [])
        ++ [Serialize Ref'].
Proof.
  split; [reflexivity|].
  apply (proj1 (@text_encode_succeeds_iff _ _ ItemEngine item_a "" item_a_text
                  [] _)).
  reflexivity.
Defined.

Lemma overloaded_hook_on_sample :
  (2 <= List.length (lookup (Scope OverloadedType) "PostJsonImport") /\
   declares_import_hook (Scope OverloadedType) = true) /\
  (THasPostJsonImport (Scope OverloadedType) = false /\
   forall Ref OutStruct tr,
     JsonObjectToUStruct OverloadedEngine (Some Ref) OutStruct tr
     = call (GenericImport Ref OutStruct)
            (FJsonObjectConverter_JsonObjectToUStruct OverloadedEngine Ref OutStruct)
            tr).
Proof.
  split; [split; [cbn; lia | reflexivity]|].
  apply (@overloaded_import_hook_is_skipped _ _ OverloadedEngine). cbn. lia.
Defined.

Lemma hidden_hook_on_sample :
  (lookup (Scope GuardedType) "PostJsonExport"
     = [MkMember "PostJsonExport" Private (MemberFunction export_signature)] /\
   Private <> Public /\
   befriends_converter (Scope GuardedType) = false) /\
  (THasPostJsonExport (Scope GuardedType) = false /\
   forall InStruct tr,
     UStructToJsonObject GuardedEngine InStruct tr
     = call (GenericExport InStruct)
            (FJsonObjectConverter_UStructToJsonObject GuardedEngine InStruct) tr).
Proof.
  split; [split; [reflexivity | split; [discriminate | reflexivity]]|].
  apply (@hidden_export_hook_is_skipped _ _ GuardedEngine
           (MkMember "PostJsonExport" Private (MemberFunction export_signature)));
    [reflexivity | discriminate | reflexivity].
Defined.

Lemma object_roundtrip_on_item_a :
  UStructToJsonObject ItemEngine item_a [] 
    = (Some item_a_json,
       [GenericExport (T := ItemType) item_a;
        HookExport (T := ItemType) item_a (Some [("name", JsonString "a")])]) /\
  exists Mapped,
    JsonObjectToUStruct ItemEngine (Some item_a_json) blank
      [GenericExport (T := ItemType) item_a;
       HookExport (T := ItemType) item_a (Some [("name", JsonString "a")])]
    = ((true, item_a),
       [GenericExport (T := ItemType) item_a;
        HookExport (T := ItemType) item_a (Some [("name", JsonString "a")])]
       ++ [GenericImport (T := ItemType) item_a_json blank;
           HookImport (T := ItemType) Mapped (Some item_a_json)]).
Proof.
  split; [reflexivity|].
  apply (@object_roundtrip _ _ ItemEngine _ _ Name Tags item_a blank item_a_json []);
    [ reflexivity | reflexivity
    | exact ConverterFacts.Item_fields_determine_struct
    | exact ConverterFacts.Item_declared_fields_read_back
    | exact ConverterFacts.Item_import_inverts_export
    | reflexivity ].
Defined.

Lemma encode_on_import_only_struct :
  (THasPostJsonExport (Scope ImportOnlyType) = false /\
   THasPostJsonImport (Scope ImportOnlyType) = true) /\
  UStructToJsonObject ImportOnlyEngine item_a []
  = call (GenericExport (T := ImportOnlyType) item_a)
         (FJsonObjectConverter_UStructToJsonObject ImportOnlyEngine item_a) [].
Proof.
  split; [split; reflexivity|].
  apply (@encode_ignores_import_hook _ _ ImportOnlyEngine item_a []). reflexivity.
Defined.

Lemma decode_on_export_only_struct :
  (THasPostJsonImport (Scope SilentType) = false /\
   THasPostJsonExport (Scope SilentType) = true) /\
  JsonObjectToUStruct SilentEngine (Some item_a_json) blank []
  = call (GenericImport (T := SilentType) item_a_json blank)
         (FJsonObjectConverter_JsonObjectToUStruct SilentEngine item_a_json blank) [].
Proof.
  split; [split; reflexivity|].
  apply (@decode_ignores_export_hook _ _ SilentEngine item_a_json blank []).
  reflexivity.
Defined.

End Laws.
